(** * render.c: the sandboxing launcher for lynx

    A shallow embedding of [src/html-renderer/render.c] (the wrapper that
    runs lynx in a namespaced sandbox) and the properties of its
    sandbox-setup-and-privilege-drop sequence.

    [main] is a straight line of library and system calls, each followed
    by an early [return 1].  It is embedded as a term of a small
    free monad over the calls it makes ([prog]); the operating system is an
    explicit, arbitrary oracle ([os]) that decides what every call returns
    and which [errno] it leaves, and [run] executes a program against it,
    recording every call in a trace. *)

From Stdlib Require Import ZArith List String Ascii Bool Lia.
Import ListNotations.

Open Scope string_scope.
Open Scope list_scope.
Open Scope Z_scope.

(** ** Platform types and constants *)

Definition uid_t := Z.
Definition gid_t := Z.

(** [struct passwd] of <pwd.h>, the fields that identify the record. *)
Record passwd : Type := mk_passwd
  { pw_name : string; pw_uid : uid_t; pw_gid : gid_t }.

(** [struct group] of <grp.h>. *)
Record group : Type := mk_group
  { gr_name : string; gr_gid : gid_t }.

(** [(uid_t)-1] and [(gid_t)-1]: not an ID.  [setresuid] and [setresgid]
    read it as "leave this ID alone" and [setgroups], through which
    [initgroups] installs the group list, rejects it. *)
Definition NO_ID : Z := 0xFFFFFFFF.

(** <errno.h> *)
Definition EINVAL : Z := 22.

(** The [CLONE_*] flags of <sched.h> (Linux ABI values; the header belongs
    to the platform, not to the repository). *)
Definition CLONE_FS      : Z := 0x00000200.
Definition CLONE_FILES   : Z := 0x00000400.
Definition CLONE_NEWNS   : Z := 0x00020000.
Definition CLONE_SYSVSEM : Z := 0x00040000.
Definition CLONE_NEWCGROUP : Z := 0x02000000.
Definition CLONE_NEWUTS  : Z := 0x04000000.
Definition CLONE_NEWIPC  : Z := 0x08000000.
Definition CLONE_NEWUSER : Z := 0x10000000.
Definition CLONE_NEWPID  : Z := 0x20000000.
Definition CLONE_NEWNET  : Z := 0x40000000.

(** ** The calls [main] makes

    A call is indexed by the type of the value it returns to the C code:
    a possibly-NULL record pointer for the two lookups, an [int] for the
    others, nothing for [perror]. *)
Inductive syscall : Type -> Type :=
| getpwnam (name : string) : syscall (option passwd)
| getgrnam (name : string) : syscall (option group)
| initgroups (user : string) (gid : gid_t) : syscall Z
| chdir (path : string) : syscall Z
| unshare (flags : Z) : syscall Z
| setresgid (rgid egid sgid : gid_t) : syscall Z
| setresuid (ruid euid suid : uid_t) : syscall Z
| execv (path : string) (argv : list string) : syscall Z
| perror (s : string) : syscall unit.

(** Programs: return a value, or make a call and continue with its result. *)
Inductive prog (A : Type) : Type :=
| Return (a : A)
| Call {R : Type} (c : syscall R) (k : R -> prog A).

Arguments Return {A} a.
Arguments Call {A R} c k.

Declare Scope prog_scope.
Delimit Scope prog_scope with prog.
Notation "x <- c ;; k" := (Call c (fun x => k))
  (at level 100, c at next level, right associativity) : prog_scope.
Notation "c ;; k" := (Call c (fun _ => k))
  (at level 100, right associativity) : prog_scope.
Open Scope prog_scope.

(** C truth value of an [int] condition: [if (rc) ...]. *)
Definition truthy (rc : Z) : bool := negb (rc =? 0).

(** The flag word handed to [unshare] (render.c lines 53-61). *)
Definition unshare_flags : Z :=
  Z.lor (Z.lor (Z.lor (Z.lor (Z.lor (Z.lor (Z.lor
    CLONE_FILES
    CLONE_FS)
    CLONE_NEWIPC)
    CLONE_NEWNET)
    CLONE_NEWNS)
    CLONE_NEWPID)
    (* CLONE_NEWUSER is commented out in the source *)
    CLONE_NEWUTS)
    CLONE_SYSVSEM.

(** [main] of render.c. *)
Definition main (argc : Z) (argv : list string) : prog Z :=
  let user := "nobody" in
  let group := "nogroup" in
  pwu <- getpwnam user ;;
  match pwu with
  | None => perror "getpwnam" ;; Return 1
  | Some pwu =>
  pwg <- getgrnam group ;;
  match pwg with
  | None => perror "getgrnam" ;; Return 1
  | Some pwg =>
  rc <- initgroups user (gr_gid pwg) ;;
  if truthy rc then perror "initgroups" ;; Return 1 else
  rc <- chdir "/" ;;
  if truthy rc then perror "chdir" ;; Return 1 else
  rc <- unshare unshare_flags ;;
  if truthy rc then perror "unshare" ;; Return 1 else
  rc <- setresgid (gr_gid pwg) (gr_gid pwg) (gr_gid pwg) ;;
  if truthy rc then perror "setresgid" ;; Return 1 else
  rc <- setresuid (pw_uid pwu) (pw_uid pwu) (pw_uid pwu) ;;
  if truthy rc then perror "setresuid" ;; Return 1 else
  execv "/usr/bin/lynx" argv ;;
  perror "execv" ;;
  Return 1
  end
  end.

(** ** The process and the operating system *)

(** What the kernel and libc hold for the process. *)
Record proc : Type := mk_proc
  { ruid : uid_t; euid : uid_t; suid : uid_t;
    rgid : gid_t; egid : gid_t; sgid : gid_t;
    groups : list gid_t;   (* the supplementary group list *)
    cwd : string;
    unshared : Z;          (* flags of the successful unshare calls *)
    errno : Z;
    stderr : string }.     (* what was written to the standard error stream *)

(** One line of the trace: a call that returned [v] leaving [errno = e],
    or a call that did not return (the image was replaced). *)
Inductive event : Type :=
| Ev {R : Type} (c : syscall R) (v : R) (e : Z)
| NoReturn {R : Type} (c : syscall R).

(** The environment.  [answer] is the value a call returns and the [errno]
    it leaves, as a function of everything that happened so far; [loads]
    says whether [execv] finds and loads the image; [memberships] lists the
    groups the group database makes a user a member of.  Nothing is assumed
    about any of them. *)
Record os : Type := mk_os
  { answer : forall R : Type, list event -> proc -> syscall R -> R * Z;
    loads : list event -> proc -> string -> list string -> bool;
    memberships : string -> list gid_t;
    strerror : Z -> string }.

Definition newline : string := String (ascii_of_nat 10) EmptyString.

(** perror(3): the argument (if not empty), a colon and a blank, the
    message for the current [errno], a newline. *)
Definition perror_text (o : os) (s : string) (e : Z) : string :=
  ((if String.eqb s EmptyString then EmptyString else s ++ ": ")
   ++ strerror o e ++ newline)%string.

(** One slot of [setresuid] or [setresgid]: [NO_ID] leaves the old ID. *)
Definition keep_id (old new : Z) : Z := if new =? NO_ID then old else new.

(** The effect of a call that returned [v], by the contract of each call:
    the changes happen when the call reports success (0).  A successful
    [initgroups user gid] makes the supplementary group list [gid] and the
    groups of [user]; a successful [setresgid] or [setresuid] sets each of
    the three IDs whose argument is not [NO_ID]; [perror] prints the
    message for the [errno] it finds. *)
Definition effect (o : os) {R : Type} (c : syscall R) : R -> proc -> proc :=
  match c in syscall R return R -> proc -> proc with
  | initgroups user gid => fun v p =>
      if v =? 0
      then mk_proc (ruid p) (euid p) (suid p) (rgid p) (egid p) (sgid p)
                   (gid :: memberships o user)
                   (cwd p) (unshared p) (errno p) (stderr p)
      else p
  | chdir path => fun v p =>
      if v =? 0
      then mk_proc (ruid p) (euid p) (suid p) (rgid p) (egid p) (sgid p)
                   (groups p) path (unshared p) (errno p) (stderr p)
      else p
  | unshare flags => fun v p =>
      if v =? 0
      then mk_proc (ruid p) (euid p) (suid p) (rgid p) (egid p) (sgid p)
                   (groups p) (cwd p) (Z.lor (unshared p) flags)
                   (errno p) (stderr p)
      else p
  | setresgid r e s => fun v p =>
      if v =? 0
      then mk_proc (ruid p) (euid p) (suid p)
                   (keep_id (rgid p) r) (keep_id (egid p) e) (keep_id (sgid p) s)
                   (groups p) (cwd p) (unshared p) (errno p) (stderr p)
      else p
  | setresuid r e s => fun v p =>
      if v =? 0
      then mk_proc (keep_id (ruid p) r) (keep_id (euid p) e) (keep_id (suid p) s)
                   (rgid p) (egid p) (sgid p)
                   (groups p) (cwd p) (unshared p) (errno p) (stderr p)
      else p
  | perror s => fun _ p =>
      mk_proc (ruid p) (euid p) (suid p) (rgid p) (egid p) (sgid p)
              (groups p) (cwd p) (unshared p) (errno p)
              (stderr p ++ perror_text o s (errno p))%string
  | _ => fun _ p => p
  end.

Definition set_errno (e : Z) (p : proc) : proc :=
  mk_proc (ruid p) (euid p) (suid p) (rgid p) (egid p) (sgid p)
          (groups p) (cwd p) (unshared p) e (stderr p).

(** What one call does: it returns a value and a new process state, or
    (only [execv]) replaces the image and never returns. *)
Inductive sysret (R : Type) : Type :=
| Returns (v : R) (p' : proc)
| Replaces (image : string) (args : list string).

Arguments Returns {R} v p'.
Arguments Replaces {R} image args.

Definition returns_of (o : os) (h : list event) (p : proc) {R : Type}
    (c : syscall R) : sysret R :=
  let (v, e) := answer o R h p c in
  Returns v (set_errno e (effect o c v p)).

(** [initgroups] on [NO_ID] fails in the kernel with [EINVAL] whatever
    the rest of the world is like; [execv] either loads the image or
    returns; every other call returns what the world answers. *)
Definition sys (o : os) (h : list event) (p : proc) {R : Type}
    (c : syscall R) : sysret R :=
  match c in syscall R return sysret R with
  | initgroups user gid =>
      if gid =? NO_ID then Returns (-1) (set_errno EINVAL p)
      else returns_of o h p (initgroups user gid)
  | execv path argv =>
      if loads o h p path argv then Replaces path argv
      else returns_of o h p (execv path argv)
  | c' => returns_of o h p c'
  end.

(** How the process ends. *)
Inductive outcome : Type :=
| Exited (status : Z)
| Replaced (image : string) (args : list string).

Record result : Type := mk_result
  { trace : list event; final : proc; ending : outcome }.

(** Run a program whose value is the exit status. *)
Fixpoint run (o : os) (h : list event) (p : proc) (t : prog Z) : result :=
  match t with
  | Return status => mk_result h p (Exited status)
  | Call c k =>
      match sys o h p c with
      | Returns v p' => run o (h ++ [Ev c v (errno p')]) p' (k v)
      | Replaces image args => mk_result (h ++ [NoReturn c]) p (Replaced image args)
      end
  end.

(** One execution of the launcher, from process state [p] under [o]. *)
Definition launch (o : os) (p : proc) (argc : Z) (argv : list string) : result :=
  run o [] p (main argc argv).

(** ** Reading a trace

    The trace is read like the output of a call tracer: which operation,
    with which arguments, returning what. *)

Inductive op : Type :=
| OpGetpwnam | OpGetgrnam | OpInitgroups | OpChdir | OpUnshare
| OpSetresgid | OpSetresuid | OpExecv | OpPerror.

Definition op_of {R : Type} (c : syscall R) : op :=
  match c with
  | getpwnam _ => OpGetpwnam
  | getgrnam _ => OpGetgrnam
  | initgroups _ _ => OpInitgroups
  | chdir _ => OpChdir
  | unshare _ => OpUnshare
  | setresgid _ _ _ => OpSetresgid
  | setresuid _ _ _ => OpSetresuid
  | execv _ _ => OpExecv
  | perror _ => OpPerror
  end.

(** The C name of the operation. *)
Definition op_name (k : op) : string :=
  match k with
  | OpGetpwnam => "getpwnam"
  | OpGetgrnam => "getgrnam"
  | OpInitgroups => "initgroups"
  | OpChdir => "chdir"
  | OpUnshare => "unshare"
  | OpSetresgid => "setresgid"
  | OpSetresuid => "setresuid"
  | OpExecv => "execv"
  | OpPerror => "perror"
  end.

Definition op_index (k : op) : nat :=
  match k with
  | OpGetpwnam => 0 | OpGetgrnam => 1 | OpInitgroups => 2 | OpChdir => 3
  | OpUnshare => 4 | OpSetresgid => 5 | OpSetresuid => 6 | OpExecv => 7
  | OpPerror => 8
  end%nat.

Definition op_eqb (a b : op) : bool := Nat.eqb (op_index a) (op_index b).

(** The stages of the pipeline; [perror] belongs to none. *)
Inductive stage : Type :=
| Resolving | GroupInit | Chdir | Isolating | DroppingGroup | DroppingUser | Exec.

Definition stage_of (k : op) : option stage :=
  match k with
  | OpGetpwnam | OpGetgrnam => Some Resolving
  | OpInitgroups => Some GroupInit
  | OpChdir => Some Chdir
  | OpUnshare => Some Isolating
  | OpSetresgid => Some DroppingGroup
  | OpSetresuid => Some DroppingUser
  | OpExecv => Some Exec
  | OpPerror => None
  end.

Definition stage_index (s : stage) : nat :=
  match s with
  | Resolving => 1 | GroupInit => 2 | Chdir => 3 | Isolating => 4
  | DroppingGroup => 5 | DroppingUser => 6 | Exec => 7
  end%nat.

Inductive arg : Type :=
| AStr (s : string)
| AInt (z : Z)
| AVec (v : list string).

Definition args_of {R : Type} (c : syscall R) : list arg :=
  match c with
  | getpwnam name => [AStr name]
  | getgrnam name => [AStr name]
  | initgroups user gid => [AStr user; AInt gid]
  | chdir path => [AStr path]
  | unshare flags => [AInt flags]
  | setresgid r e s => [AInt r; AInt e; AInt s]
  | setresuid r e s => [AInt r; AInt e; AInt s]
  | execv path argv => [AStr path; AVec argv]
  | perror s => [AStr s]
  end.

Inductive retval : Type :=
| RPasswd (r : option passwd)
| RGroup (r : option group)
| RInt (z : Z)
| RVoid
| RNever.                   (* the call did not return *)

Definition retval_of {R : Type} (c : syscall R) : R -> retval :=
  match c in syscall R return R -> retval with
  | getpwnam _ => RPasswd
  | getgrnam _ => RGroup
  | perror _ => fun _ => RVoid
  | initgroups _ _ => RInt
  | chdir _ => RInt
  | unshare _ => RInt
  | setresgid _ _ _ => RInt
  | setresuid _ _ _ => RInt
  | execv _ _ => RInt
  end.

(** Did the call do what was asked?  A lookup succeeds with a record, an
    [int] call with 0; [execv] succeeds by not returning. *)
Definition call_ok {R : Type} (c : syscall R) : R -> bool :=
  match c in syscall R return R -> bool with
  | getpwnam _ => fun v => match v with Some _ => true | None => false end
  | getgrnam _ => fun v => match v with Some _ => true | None => false end
  | perror _ => fun _ => true
  | execv _ _ => fun _ => false
  | initgroups _ _ => fun v => v =? 0
  | chdir _ => fun v => v =? 0
  | unshare _ => fun v => v =? 0
  | setresgid _ _ _ => fun v => v =? 0
  | setresuid _ _ _ => fun v => v =? 0
  end.

Definition ev_op (ev : event) : op :=
  match ev with Ev c _ _ => op_of c | NoReturn c => op_of c end.

Definition ev_args (ev : event) : list arg :=
  match ev with Ev c _ _ => args_of c | NoReturn c => args_of c end.

Definition ev_ret (ev : event) : retval :=
  match ev with Ev c v _ => retval_of c v | NoReturn _ => RNever end.

(** The [errno] the call left. *)
Definition ev_errno (ev : event) : option Z :=
  match ev with Ev _ _ e => Some e | NoReturn _ => None end.

Definition ev_ok (ev : event) : bool :=
  match ev with
  | Ev c v _ => call_ok c v
  | NoReturn c => op_eqb (op_of c) OpExecv
  end.

Definition ev_failed (ev : event) : bool := negb (ev_ok ev).

Definition is_op (k : op) (ev : event) : bool := op_eqb (ev_op ev) k.

(** How many times operation [k] was called. *)
Definition calls (k : op) (tr : list event) : nat :=
  List.length (filter (is_op k) tr).

Definition exit_status (out : outcome) : option Z :=
  match out with Exited s => Some s | Replaced _ _ => None end.

Definition replaced (out : outcome) : bool :=
  match out with Exited _ => false | Replaced _ _ => true end.

(** What a call answered: the value it returned and the [errno] it left. *)
Definition ev_answer (ev : event) : retval * option Z :=
  (ev_ret ev, ev_errno ev).

(** A call with the contents of any argument vector forgotten. *)
Definition blind (a : arg) : arg :=
  match a with AVec _ => AVec [] | _ => a end.

Definition ev_call (ev : event) : op * list arg :=
  (ev_op ev, map blind (ev_args ev)).

(** The same forgetting, on calls and on trace lines. *)
Definition blind_call {R : Type} (c : syscall R) : syscall R :=
  match c in syscall R return syscall R with
  | execv path _ => execv path []
  | getpwnam name => getpwnam name
  | getgrnam name => getgrnam name
  | initgroups user gid => initgroups user gid
  | chdir path => chdir path
  | unshare flags => unshare flags
  | setresgid r e s => setresgid r e s
  | setresuid r e s => setresuid r e s
  | perror s => perror s
  end.

Definition blind_event (ev : event) : event :=
  match ev with
  | Ev c v e => Ev (blind_call c) v e
  | NoReturn c => NoReturn (blind_call c)
  end.

(** A world whose behaviour does not depend on the contents of argument
    vectors: what a call returns, and whether an image loads, is the same
    when every argument vector, in the call and in the history, is
    replaced by the empty one. *)
Definition argv_blind (o : os) : Prop :=
  (forall (R : Type) (h : list event) (p : proc) (c : syscall R),
      answer o R h p c = answer o R (map blind_event h) p (blind_call c)) /\
  (forall (h : list event) (p : proc) (path : string) (argv : list string),
      loads o h p path argv = loads o (map blind_event h) p path []).

(** ** Sample worlds, for running the model *)

Definition nobody : passwd := mk_passwd "nobody" 65534 65534.
Definition nogroup : group := mk_group "nogroup" 65534.

Definition root_shell : proc :=
  mk_proc 0 0 0 0 0 0 [0] "/root" 0 0 EmptyString.

Definition messages (e : Z) : string :=
  if e =? 0 then "Success"
  else if e =? 1 then "Operation not permitted"
  else if e =? 2 then "No such file or directory"
  else if e =? 22 then "Invalid argument"
  else "Unknown error".

(** A world in which every call succeeds, except operation [bad] (if any),
    which fails with [errno = e]. *)
Definition scripted_answer (bad : option op) (e : Z) (R : Type)
    (h : list event) (p : proc) (c : syscall R) : R * Z :=
  let fails := match bad with Some k => op_eqb k (op_of c) | None => false end in
  match c in syscall R return R * Z with
  | getpwnam _ => if fails then (None, e) else (Some nobody, errno p)
  | getgrnam _ => if fails then (None, e) else (Some nogroup, errno p)
  | perror _ => (tt, errno p)
  | execv _ _ => (-1, e)
  | initgroups _ _ => if fails then (-1, e) else (0, errno p)
  | chdir _ => if fails then (-1, e) else (0, errno p)
  | unshare _ => if fails then (-1, e) else (0, errno p)
  | setresgid _ _ _ => if fails then (-1, e) else (0, errno p)
  | setresuid _ _ _ => if fails then (-1, e) else (0, errno p)
  end.

Definition scripted (bad : option op) (e : Z) : os :=
  mk_os (scripted_answer bad e)
        (fun _ _ _ _ =>
           match bad with Some OpExecv => false | _ => true end)
        (fun _ => [])
        messages.

Definition all_fine : os := scripted None 0.

Definition sample_argv : list string := ["render"; "mail.html"].

(** Everything succeeds and lynx takes over. *)
Definition fine_run : result := launch all_fine root_shell 2 sample_argv.

(** The kernel refuses the namespaces (EINVAL). *)
Definition refused_run : result :=
  launch (scripted (Some OpUnshare) 22) root_shell 2 sample_argv.

(** lynx is not installed (ENOENT). *)
Definition missing_run : result :=
  launch (scripted (Some OpExecv) 2) root_shell 2 sample_argv.

(** The working directory cannot be entered (ENOENT). *)
Definition chdir_denied_run : result :=
  launch (scripted (Some OpChdir) 2) root_shell 2 sample_argv.

(** The kernel refuses the group drop (EPERM). *)
Definition setresgid_denied_run : result :=
  launch (scripted (Some OpSetresgid) 1) root_shell 2 sample_argv.

(** The kernel refuses the user drop (EPERM). *)
Definition setresuid_denied_run : result :=
  launch (scripted (Some OpSetresuid) 1) root_shell 2 sample_argv.

(** A user database that gives "nobody" the number [NO_ID]; every call
    succeeds. *)
Definition numberless : passwd := mk_passwd "nobody" NO_ID 65534.

Definition numberless_answer (R : Type) (h : list event) (p : proc)
    (c : syscall R) : R * Z :=
  match c in syscall R return R * Z -> R * Z with
  | getpwnam _ => fun _ => (Some numberless, errno p)
  | _ => fun usual => usual
  end (scripted_answer None 0 R h p c).

Definition numberless_world : os :=
  mk_os numberless_answer (fun _ _ _ _ => true) (fun _ => []) messages.

Definition numberless_run : result :=
  launch numberless_world root_shell 2 sample_argv.


(** ** The nine ways a launch can go

    [main] has eight exits through [perror] and one through a successful
    [execv].  [launched] lists the nine runs, each with its trace, the
    process state it leaves and its ending; [launch_launched] shows that
    every execution is one of them. *)

(** Process states along the pipeline (the [errno] field apart): after
    [initgroups], after [chdir], after [unshare], after the group drop and
    after the user drop. *)
Definition grouped (o : os) (gr : group) (p : proc) : proc :=
  mk_proc (ruid p) (euid p) (suid p) (rgid p) (egid p) (sgid p)
          (gr_gid gr :: memberships o "nobody")
          (cwd p) (unshared p) (errno p) (stderr p).

Definition at_root (o : os) (gr : group) (p : proc) : proc :=
  mk_proc (ruid p) (euid p) (suid p) (rgid p) (egid p) (sgid p)
          (gr_gid gr :: memberships o "nobody")
          "/" (unshared p) (errno p) (stderr p).

Definition isolated (o : os) (gr : group) (p : proc) : proc :=
  mk_proc (ruid p) (euid p) (suid p) (rgid p) (egid p) (sgid p)
          (gr_gid gr :: memberships o "nobody")
          "/" (Z.lor (unshared p) unshare_flags) (errno p) (stderr p).

Definition group_dropped (o : os) (gr : group) (p : proc) : proc :=
  mk_proc (ruid p) (euid p) (suid p) (gr_gid gr) (gr_gid gr) (gr_gid gr)
          (gr_gid gr :: memberships o "nobody")
          "/" (Z.lor (unshared p) unshare_flags) (errno p) (stderr p).

Definition user_dropped (o : os) (pw : passwd) (gr : group) (p : proc) : proc :=
  mk_proc (keep_id (ruid p) (pw_uid pw)) (keep_id (euid p) (pw_uid pw))
          (keep_id (suid p) (pw_uid pw))
          (gr_gid gr) (gr_gid gr) (gr_gid gr)
          (gr_gid gr :: memberships o "nobody")
          "/" (Z.lor (unshared p) unshare_flags) (errno p) (stderr p).

(** State [q] after a call failed leaving [errno = e] and [perror label]
    reported it, itself leaving [errno = e']. *)
Definition reported (o : os) (label : string) (e e' : Z) (q : proc) : proc :=
  mk_proc (ruid q) (euid q) (suid q) (rgid q) (egid q) (sgid q)
          (groups q) (cwd q) (unshared q) e'
          (stderr q ++ perror_text o label e)%string.

Section Launched.

Variables (o : os) (p : proc) (argv : list string).

Inductive launched : result -> Prop :=
| halt_getpwnam e e' :
    launched (mk_result
      [Ev (getpwnam "nobody") None e; Ev (perror "getpwnam") tt e']
      (reported o "getpwnam" e e' p)
      (Exited 1))
| halt_getgrnam pw e1 e e' :
    launched (mk_result
      [Ev (getpwnam "nobody") (Some pw) e1;
       Ev (getgrnam "nogroup") None e; Ev (perror "getgrnam") tt e']
      (reported o "getgrnam" e e' p)
      (Exited 1))
| halt_initgroups pw e1 gr e2 v e e' :
    v <> 0 ->
    launched (mk_result
      [Ev (getpwnam "nobody") (Some pw) e1;
       Ev (getgrnam "nogroup") (Some gr) e2;
       Ev (initgroups "nobody" (gr_gid gr)) v e;
       Ev (perror "initgroups") tt e']
      (reported o "initgroups" e e' p)
      (Exited 1))
| halt_chdir pw e1 gr e2 e3 v e e' :
    v <> 0 ->
    gr_gid gr <> NO_ID ->
    launched (mk_result
      [Ev (getpwnam "nobody") (Some pw) e1;
       Ev (getgrnam "nogroup") (Some gr) e2;
       Ev (initgroups "nobody" (gr_gid gr)) 0 e3;
       Ev (chdir "/") v e;
       Ev (perror "chdir") tt e']
      (reported o "chdir" e e' (grouped o gr p))
      (Exited 1))
| halt_unshare pw e1 gr e2 e3 e4 v e e' :
    v <> 0 ->
    gr_gid gr <> NO_ID ->
    launched (mk_result
      [Ev (getpwnam "nobody") (Some pw) e1;
       Ev (getgrnam "nogroup") (Some gr) e2;
       Ev (initgroups "nobody" (gr_gid gr)) 0 e3;
       Ev (chdir "/") 0 e4;
       Ev (unshare unshare_flags) v e;
       Ev (perror "unshare") tt e']
      (reported o "unshare" e e' (at_root o gr p))
      (Exited 1))
| halt_setresgid pw e1 gr e2 e3 e4 e5 v e e' :
    v <> 0 ->
    gr_gid gr <> NO_ID ->
    launched (mk_result
      [Ev (getpwnam "nobody") (Some pw) e1;
       Ev (getgrnam "nogroup") (Some gr) e2;
       Ev (initgroups "nobody" (gr_gid gr)) 0 e3;
       Ev (chdir "/") 0 e4;
       Ev (unshare unshare_flags) 0 e5;
       Ev (setresgid (gr_gid gr) (gr_gid gr) (gr_gid gr)) v e;
       Ev (perror "setresgid") tt e']
      (reported o "setresgid" e e' (isolated o gr p))
      (Exited 1))
| halt_setresuid pw e1 gr e2 e3 e4 e5 e6 v e e' :
    v <> 0 ->
    gr_gid gr <> NO_ID ->
    launched (mk_result
      [Ev (getpwnam "nobody") (Some pw) e1;
       Ev (getgrnam "nogroup") (Some gr) e2;
       Ev (initgroups "nobody" (gr_gid gr)) 0 e3;
       Ev (chdir "/") 0 e4;
       Ev (unshare unshare_flags) 0 e5;
       Ev (setresgid (gr_gid gr) (gr_gid gr) (gr_gid gr)) 0 e6;
       Ev (setresuid (pw_uid pw) (pw_uid pw) (pw_uid pw)) v e;
       Ev (perror "setresuid") tt e']
      (reported o "setresuid" e e' (group_dropped o gr p))
      (Exited 1))
| halt_execv pw e1 gr e2 e3 e4 e5 e6 e7 v e e' :
    gr_gid gr <> NO_ID ->
    launched (mk_result
      [Ev (getpwnam "nobody") (Some pw) e1;
       Ev (getgrnam "nogroup") (Some gr) e2;
       Ev (initgroups "nobody" (gr_gid gr)) 0 e3;
       Ev (chdir "/") 0 e4;
       Ev (unshare unshare_flags) 0 e5;
       Ev (setresgid (gr_gid gr) (gr_gid gr) (gr_gid gr)) 0 e6;
       Ev (setresuid (pw_uid pw) (pw_uid pw) (pw_uid pw)) 0 e7;
       Ev (execv "/usr/bin/lynx" argv) v e;
       Ev (perror "execv") tt e']
      (reported o "execv" e e' (user_dropped o pw gr p))
      (Exited 1))
| handed_over pw e1 gr e2 e3 e4 e5 e6 e7 :
    gr_gid gr <> NO_ID ->
    launched (mk_result
      [Ev (getpwnam "nobody") (Some pw) e1;
       Ev (getgrnam "nogroup") (Some gr) e2;
       Ev (initgroups "nobody" (gr_gid gr)) 0 e3;
       Ev (chdir "/") 0 e4;
       Ev (unshare unshare_flags) 0 e5;
       Ev (setresgid (gr_gid gr) (gr_gid gr) (gr_gid gr)) 0 e6;
       Ev (setresuid (pw_uid pw) (pw_uid pw) (pw_uid pw)) 0 e7;
       NoReturn (execv "/usr/bin/lynx" argv)]
      (set_errno e7 (user_dropped o pw gr p))
      (Replaced "/usr/bin/lynx" argv)).

End Launched.

Arguments unshare_flags : simpl never.

Lemma truthy_false (rc : Z) : truthy rc = false -> rc = 0.
Proof.
  unfold truthy. destruct (Z.eqb_spec rc 0); [trivial | discriminate].
Qed.

Lemma truthy_true (rc : Z) : truthy rc = true -> rc <> 0.
Proof.
  unfold truthy. destruct (Z.eqb_spec rc 0); [discriminate | trivial].
Qed.

Arguments NO_ID : simpl never.
Arguments EINVAL : simpl never.

Lemma keep_id_set (old new : Z) : new <> NO_ID -> keep_id old new = new.
Proof.
  intros Hnew. unfold keep_id.
  destruct (Z.eqb_spec new NO_ID); [contradiction | reflexivity].
Qed.

(** One step of case analysis on what the world answers. *)
Ltac ask_os :=
  unfold returns_of;
  match goal with
  | |- context [?g =? NO_ID] =>
      let G := fresh "G" in
      destruct (Z.eqb_spec g NO_ID) as [G | G]; cbn
  | |- context [answer ?o ?R ?h ?p ?c] =>
      let v := fresh "v" in
      let e := fresh "e" in
      destruct (answer o R h p c) as [v e]; cbn
  | |- context [loads ?o ?h ?p ?path ?argv] =>
      destruct (loads o h p path argv); cbn
  | |- context [truthy ?v] =>
      let T := fresh "T" in
      destruct (truthy v) eqn:T;
      [apply truthy_true in T; rewrite ?(proj2 (Z.eqb_neq v 0) T)
      |apply truthy_false in T; subst v]; cbn
  | |- context [match ?x with Some _ => _ | None => _ end] =>
      destruct x; cbn
  | v : unit |- _ => destruct v
  end.

Lemma launch_launched (o : os) (p : proc) (argc : Z) (argv : list string) :
  launched o p argv (launch o p argc argv).
Proof.
  unfold launch, main; cbn.
  repeat ask_os.
  all: repeat match goal with
              | G : ?x <> NO_ID |- context [keep_id ?old ?x] =>
                  rewrite (keep_id_set old x G)
              end.
  all: econstructor; first [eassumption | discriminate].
Qed.

(** ** The sample runs *)

Example fine_run_calls :
  map ev_op (trace fine_run) =
  [OpGetpwnam; OpGetgrnam; OpInitgroups; OpChdir; OpUnshare;
   OpSetresgid; OpSetresuid; OpExecv].
Proof. reflexivity. Qed.

Example fine_run_ending :
  ending fine_run = Replaced "/usr/bin/lynx" ["render"; "mail.html"].
Proof. reflexivity. Qed.

Example refused_run_calls :
  map ev_op (trace refused_run) =
  [OpGetpwnam; OpGetgrnam; OpInitgroups; OpChdir; OpUnshare; OpPerror].
Proof. reflexivity. Qed.

Example refused_run_says :
  stderr (final refused_run) = ("unshare: Invalid argument" ++ newline)%string /\
  ending refused_run = Exited 1 /\
  ruid (final refused_run) = 0.
Proof. repeat split. Qed.

Example missing_run_says :
  stderr (final missing_run) =
    ("execv: No such file or directory" ++ newline)%string /\
  ending missing_run = Exited 1 /\
  euid (final missing_run) = 65534.
Proof. repeat split. Qed.

Example unshare_flags_value : unshare_flags = 0x6c060600.
Proof. reflexivity. Qed.

(** Replace the launch in the goal by each of its nine possible runs. *)
Ltac nine_runs o p argc argv :=
  let r := fresh "r" in
  let L := fresh "L" in
  generalize (launch_launched o p argc argv);
  generalize (launch o p argc argv);
  intros r L; destruct L; cbn [trace final ending].

(** Walk a hypothesis [H : nth_error tr i = Some ev] over a trace given
    event by event. *)
Ltac at_each i H :=
  repeat (destruct i as [|i]; [injection H as <- | cbn in H]);
  try (destruct i; discriminate H).

(** ** Ordering of the privilege drops *)

(** C1: whenever the user-ID change is issued, a group-ID change was issued
    earlier in the same run, it named the ID of the group record resolved
    in this run for all three group IDs, and it succeeded; and no group-ID
    change is ever issued at or after the user-ID change. *)
Theorem group_drop_before_user_drop
    (o : os) (p : proc) (argc : Z) (argv : list string) (i : nat) (ev : event) :
  nth_error (trace (launch o p argc argv)) i = Some ev ->
  ev_op ev = OpSetresuid ->
  (exists j ev' gr,
      (j < i)%nat /\
      nth_error (trace (launch o p argc argv)) j = Some ev' /\
      ev_op ev' = OpSetresgid /\
      ev_ok ev' = true /\
      ev_args ev' = [AInt (gr_gid gr); AInt (gr_gid gr); AInt (gr_gid gr)] /\
      In (RGroup (Some gr)) (map ev_ret (trace (launch o p argc argv)))) /\
  (forall j ev',
      nth_error (trace (launch o p argc argv)) j = Some ev' ->
      ev_op ev' = OpSetresgid -> (j < i)%nat).
Proof.
  nine_runs o p argc argv; intros Hev Hop; at_each i Hev; try discriminate Hop.
  all: split;
    [ exists 5%nat; eexists; exists gr;
      split; [lia |]; split; [reflexivity |]; split; [reflexivity |];
      split; [reflexivity |]; split; [reflexivity |];
      right; left; reflexivity
    | intros j ev' Hj Hop'; at_each j Hj; try discriminate Hop'; lia ].
Qed.

(** ** Isolation comes first *)

(** C2: whenever a privilege drop (group or user) is issued, [unshare] was
    called earlier in the same run and returned success, and no [unshare]
    call is issued at or after a privilege drop. *)
Theorem isolation_before_privilege_drop
    (o : os) (p : proc) (argc : Z) (argv : list string) (i : nat) (ev : event) :
  nth_error (trace (launch o p argc argv)) i = Some ev ->
  ev_op ev = OpSetresgid \/ ev_op ev = OpSetresuid ->
  (exists j ev',
      (j < i)%nat /\
      nth_error (trace (launch o p argc argv)) j = Some ev' /\
      ev_op ev' = OpUnshare /\ ev_ok ev' = true) /\
  (forall j ev',
      nth_error (trace (launch o p argc argv)) j = Some ev' ->
      ev_op ev' = OpUnshare -> (j < i)%nat).
Proof.
  nine_runs o p argc argv; intros Hev Hop; at_each i Hev;
    try (destruct Hop as [Hop | Hop]; discriminate Hop).
  all: split;
    [ exists 4%nat; eexists; repeat split; [lia | reflexivity..]
    | intros j ev' Hj Hop'; at_each j Hj; try discriminate Hop'; lia ].
Qed.

(** ** Failing fast *)

(** C3: when a call of a stage before Exec fails, the process exits with a
    nonzero status, [execv] is never called, nothing but [perror] is called
    after the failing call, and no call of a later stage appears anywhere in
    the trace; in particular a failed user lookup is followed by no
    [unshare], [setresgid] or [setresuid], and a failed [unshare] by no
    [setresgid] or [setresuid]. *)
Theorem failure_stops_the_pipeline
    (o : os) (p : proc) (argc : Z) (argv : list string) (i : nat) (ev : event) :
  nth_error (trace (launch o p argc argv)) i = Some ev ->
  ev_failed ev = true ->
  ev_op ev <> OpExecv ->
  (exists status,
      ending (launch o p argc argv) = Exited status /\ status <> 0) /\
  calls OpExecv (trace (launch o p argc argv)) = 0%nat /\
  (forall j ev',
      nth_error (trace (launch o p argc argv)) j = Some ev' ->
      (i < j)%nat -> ev_op ev' = OpPerror) /\
  (forall j ev' s s',
      nth_error (trace (launch o p argc argv)) j = Some ev' ->
      stage_of (ev_op ev) = Some s ->
      stage_of (ev_op ev') = Some s' ->
      (stage_index s' <= stage_index s)%nat) /\
  (ev_op ev = OpGetpwnam ->
      calls OpUnshare (trace (launch o p argc argv)) = 0%nat /\
      calls OpSetresgid (trace (launch o p argc argv)) = 0%nat /\
      calls OpSetresuid (trace (launch o p argc argv)) = 0%nat) /\
  (ev_op ev = OpUnshare ->
      calls OpSetresgid (trace (launch o p argc argv)) = 0%nat /\
      calls OpSetresuid (trace (launch o p argc argv)) = 0%nat).
Proof.
  nine_runs o p argc argv; intros Hev Hfail Hstage; at_each i Hev;
    unfold ev_failed in Hfail; cbn in Hfail;
    try discriminate Hfail; try (exfalso; apply Hstage; reflexivity).
  all: try match type of Hfail with
           | negb (?v =? 0) = true =>
               exfalso; revert Hfail; destruct (Z.eqb_spec v 0);
               [discriminate | congruence]
           end.
  all: (split; [exists 1; split; [reflexivity | lia] |]);
       (split; [reflexivity |]);
       (split; [intros j ev' Hj Hlt; at_each j Hj; try lia; reflexivity |]);
       (split; [intros j ev' s s' Hj Hs Hs'; at_each j Hj;
                cbn in Hs, Hs'; try discriminate Hs';
                injection Hs as <-; injection Hs' as <-; cbn; lia |]);
       split; intros Hop; try discriminate Hop; repeat split.
Qed.

(** ** The identity handed to the replacement image *)

(** C4, as amended: when the image is replaced and the user record
    resolved in the run does not carry [NO_ID] (the value [(uid_t)-1]) as
    its ID, the two lookups of this run returned a user record [pw] and a
    group record [gr]; the real, effective and saved user IDs of the
    process all equal [pw_uid pw] and the real, effective and saved group
    IDs all equal [gr_gid gr]; and each triple was set by the only call of
    its kind, which names the same ID three times and succeeded.  Moreover,
    however a run ends, each triple is either still the one the launcher
    started with or already three times the resolved ID: no run leaves a
    triple partly changed. *)
Theorem replaced_image_has_target_identity
    (o : os) (p : proc) (argc : Z) (argv : list string) :
  (replaced (ending (launch o p argc argv)) = true ->
   (forall pw,
       In (RPasswd (Some pw)) (map ev_ret (trace (launch o p argc argv))) ->
       pw_uid pw <> NO_ID) ->
   exists pw gr e1 e2 e6 e7,
     In (Ev (getpwnam "nobody") (Some pw) e1) (trace (launch o p argc argv)) /\
     In (Ev (getgrnam "nogroup") (Some gr) e2) (trace (launch o p argc argv)) /\
     (ruid (final (launch o p argc argv)) = pw_uid pw /\
      euid (final (launch o p argc argv)) = pw_uid pw /\
      suid (final (launch o p argc argv)) = pw_uid pw) /\
     (rgid (final (launch o p argc argv)) = gr_gid gr /\
      egid (final (launch o p argc argv)) = gr_gid gr /\
      sgid (final (launch o p argc argv)) = gr_gid gr) /\
     filter (is_op OpSetresgid) (trace (launch o p argc argv)) =
       [Ev (setresgid (gr_gid gr) (gr_gid gr) (gr_gid gr)) 0 e6] /\
     filter (is_op OpSetresuid) (trace (launch o p argc argv)) =
       [Ev (setresuid (pw_uid pw) (pw_uid pw) (pw_uid pw)) 0 e7]) /\
  ((ruid (final (launch o p argc argv)) = ruid p /\
    euid (final (launch o p argc argv)) = euid p /\
    suid (final (launch o p argc argv)) = suid p) \/
   (exists pw,
      In (RPasswd (Some pw)) (map ev_ret (trace (launch o p argc argv))) /\
      ruid (final (launch o p argc argv)) = pw_uid pw /\
      euid (final (launch o p argc argv)) = pw_uid pw /\
      suid (final (launch o p argc argv)) = pw_uid pw)) /\
  ((rgid (final (launch o p argc argv)) = rgid p /\
    egid (final (launch o p argc argv)) = egid p /\
    sgid (final (launch o p argc argv)) = sgid p) \/
   (exists gr,
      In (RGroup (Some gr)) (map ev_ret (trace (launch o p argc argv))) /\
      rgid (final (launch o p argc argv)) = gr_gid gr /\
      egid (final (launch o p argc argv)) = gr_gid gr /\
      sgid (final (launch o p argc argv)) = gr_gid gr)).
Proof.
  split; [| split].
  - nine_runs o p argc argv; intros Hrep Hid; try discriminate Hrep.
    assert (Hpw : pw_uid pw <> NO_ID) by (apply Hid; left; reflexivity).
    exists pw, gr, e1, e2, e6, e7. cbn.
    rewrite !(keep_id_set _ _ Hpw). intuition.
  - nine_runs o p argc argv; cbn;
      try (left; repeat split; reflexivity).
    all: destruct (Z.eq_dec (pw_uid pw) NO_ID) as [Hno | Hpw];
      [ left; rewrite Hno; repeat split; reflexivity
      | right; exists pw; rewrite !(keep_id_set _ _ Hpw);
        repeat split; left; reflexivity ].
  - nine_runs o p argc argv; cbn;
      first [ left; repeat split; reflexivity
            | right; exists gr; repeat split; right; left; reflexivity ].
Qed.

(** ** The namespace set *)

Lemma unshare_flags_range : 0 <= unshare_flags < 2 ^ 31.
Proof. vm_compute. split; [discriminate | reflexivity]. Qed.

(** C5: [unshare] is called at most once, exactly once in every run whose
    [chdir] succeeded, and always with the same flag word.  That word
    contains each of CLONE_NEWNS, CLONE_NEWIPC, CLONE_NEWNET, CLONE_NEWPID,
    CLONE_NEWUTS, CLONE_SYSVSEM, CLONE_FILES and CLONE_FS, every bit set in
    it belongs to one of them, and CLONE_NEWUSER is not in it. *)
Theorem isolation_flag_set
    (o : os) (p : proc) (argc : Z) (argv : list string) :
  (calls OpUnshare (trace (launch o p argc argv)) <= 1)%nat /\
  ((exists ev, In ev (trace (launch o p argc argv)) /\
               ev_op ev = OpChdir /\ ev_ok ev = true) ->
   calls OpUnshare (trace (launch o p argc argv)) = 1%nat) /\
  (forall ev, In ev (trace (launch o p argc argv)) ->
              ev_op ev = OpUnshare -> ev_args ev = [AInt unshare_flags]) /\
  (forall f, In f [CLONE_NEWNS; CLONE_NEWIPC; CLONE_NEWNET; CLONE_NEWPID;
                   CLONE_NEWUTS; CLONE_SYSVSEM; CLONE_FILES; CLONE_FS] ->
             Z.land unshare_flags f = f /\ f <> 0) /\
  (forall n, Z.testbit unshare_flags n = true ->
             exists f, In f [CLONE_NEWNS; CLONE_NEWIPC; CLONE_NEWNET;
                             CLONE_NEWPID; CLONE_NEWUTS; CLONE_SYSVSEM;
                             CLONE_FILES; CLONE_FS] /\
                       f = 2 ^ n) /\
  Z.land unshare_flags CLONE_NEWUSER = 0.
Proof.
  split; [nine_runs o p argc argv; cbn; lia |].
  split.
  { nine_runs o p argc argv; intros (ev & Hin & Hop & Hok); cbn in Hin;
      try reflexivity;
      repeat (destruct Hin as [<- | Hin]; [try discriminate Hop |]);
      try contradiction.
    all: cbn in Hok; exfalso; revert Hok; destruct (Z.eqb_spec v 0);
      [congruence | discriminate]. }
  split.
  { nine_runs o p argc argv; intros ev Hin Hop; cbn in Hin;
      repeat (destruct Hin as [<- | Hin]; [try discriminate Hop |]);
      try contradiction; reflexivity. }
  split.
  { intros f Hin. cbn in Hin.
    repeat (destruct Hin as [<- | Hin]; [vm_compute; split; [reflexivity | discriminate] |]).
    contradiction. }
  split; [| reflexivity].
  intros n Hbit.
  destruct (Z.ltb_spec n 0) as [Hneg | Hnonneg].
  { rewrite Z.testbit_neg_r in Hbit by assumption. discriminate. }
  destruct (Z.ltb_spec n 31) as [Hlow | Hhigh].
  - assert (Hn : In n (map Z.of_nat (seq 0 31))).
    { apply in_map_iff. exists (Z.to_nat n). split; [lia |].
      apply in_seq. lia. }
    cbn in Hn.
    repeat (destruct Hn as [<- | Hn];
            [ first [ discriminate Hbit
                    | eexists; split; [| reflexivity]; vm_compute; tauto ] |]).
    contradiction.
  - exfalso.
    assert (Hz : Z.testbit unshare_flags n = false).
    { apply Z.bits_above_log2; [apply unshare_flags_range |].
      apply Z.lt_le_trans with 31; [| assumption].
      apply Z.log2_lt_pow2; [vm_compute; reflexivity | apply unshare_flags_range]. }
    congruence.
Qed.

(** ** Diagnostics *)

(** C6: when any call of the pipeline fails, leaving [errno = e], the
    launcher exits with status 1, [perror] is called exactly once, and what
    the run adds to the standard error stream is exactly the line made of
    the name of the failing operation, a colon and a blank, the system's
    message for [e], and a newline. *)
Theorem failure_is_reported
    (o : os) (p : proc) (argc : Z) (argv : list string) (i : nat) (ev : event) :
  nth_error (trace (launch o p argc argv)) i = Some ev ->
  ev_failed ev = true ->
  exists e,
    ev_errno ev = Some e /\
    ending (launch o p argc argv) = Exited 1 /\
    calls OpPerror (trace (launch o p argc argv)) = 1%nat /\
    stderr (final (launch o p argc argv)) =
      (stderr p ++ op_name (ev_op ev) ++ ": " ++ strerror o e ++ newline)%string.
Proof.
  nine_runs o p argc argv; intros Hev Hfail; at_each i Hev;
    unfold ev_failed in Hfail; cbn in Hfail; try discriminate Hfail.
  all: try match type of Hfail with
           | negb (?v =? 0) = true =>
               exfalso; revert Hfail; destruct (Z.eqb_spec v 0);
               [discriminate | congruence]
           end.
  all: eexists; repeat split; reflexivity.
Qed.

(** ** No call is repeated *)

(** C7: in every run each operation is called at most once; in a run that
    ends with the image replaced, each of the eight pipeline operations
    (user lookup, group lookup, [initgroups], [chdir], [unshare],
    [setresgid], [setresuid], [execv]) is called exactly once. *)
Theorem every_call_at_most_once
    (o : os) (p : proc) (argc : Z) (argv : list string) (k : op) :
  (calls k (trace (launch o p argc argv)) <= 1)%nat /\
  (replaced (ending (launch o p argc argv)) = true ->
   k <> OpPerror ->
   calls k (trace (launch o p argc argv)) = 1%nat).
Proof.
  split.
  - nine_runs o p argc argv; destruct k; cbn; lia.
  - nine_runs o p argc argv; intros Hrep Hk; try discriminate Hrep.
    destruct k; try reflexivity. exfalso; apply Hk; reflexivity.
Qed.

(** ** The argument vector *)

(** C8: every [execv] call of a run is made on the launcher's own argument
    vector, whole, and when the image is replaced the new image receives
    exactly that vector. *)
Theorem argv_forwarded_verbatim
    (o : os) (p : proc) (argc : Z) (argv : list string) :
  (forall ev, In ev (trace (launch o p argc argv)) ->
              ev_op ev = OpExecv ->
              ev_args ev = [AStr "/usr/bin/lynx"; AVec argv]) /\
  (forall image args,
      ending (launch o p argc argv) = Replaced image args -> args = argv).
Proof.
  split.
  - nine_runs o p argc argv; intros ev Hin Hop; cbn in Hin;
      repeat (destruct Hin as [<- | Hin]; [try discriminate Hop |]);
      try contradiction; reflexivity.
  - nine_runs o p argc argv; intros image args Hend; try discriminate Hend.
    injection Hend as _ <-. reflexivity.
Qed.

(** ** The fixed configuration *)

(** C9: in every run a user lookup is for "nobody", a group lookup for
    "nogroup", [initgroups] is for user "nobody", [chdir] goes to "/" and
    [execv] loads "/usr/bin/lynx"; no other name or path is passed to these
    calls. *)
Theorem configuration_is_fixed
    (o : os) (p : proc) (argc : Z) (argv : list string) (ev : event) :
  In ev (trace (launch o p argc argv)) ->
  match ev_op ev with
  | OpGetpwnam => ev_args ev = [AStr "nobody"]
  | OpGetgrnam => ev_args ev = [AStr "nogroup"]
  | OpInitgroups => exists gid, ev_args ev = [AStr "nobody"; AInt gid]
  | OpChdir => ev_args ev = [AStr "/"]
  | OpExecv => exists args, ev_args ev = [AStr "/usr/bin/lynx"; AVec args]
  | _ => True
  end.
Proof.
  nine_runs o p argc argv; intros Hin; cbn in Hin;
    repeat (destruct Hin as [<- | Hin];
            [cbn; first [reflexivity | exact I | eexists; reflexivity] |]);
    contradiction.
Qed.

(** ** The argument vector influences nothing else *)

(** Under an [argv_blind] world, rewrite what the world says about a call
    or a history that carries the argument vector [argv] into what it says
    about the empty vector. *)
Ltac forget_argv Hans Hloads argv :=
  unfold returns_of;
  match goal with
  | |- context [loads ?o ?h ?p ?path argv] =>
      rewrite (Hloads h p path argv); cbn
  | |- context [answer ?o ?R ?h ?p (execv ?path argv)] =>
      rewrite (Hans R h p (execv path argv)); cbn
  | |- context [answer ?o ?R ?h ?p ?c] =>
      match h with
      | context [argv] => rewrite (Hans R h p c); cbn
      end
  end.

(** C10: in a world whose answers do not depend on the contents of argument
    vectors, take two launches from the same process state on any two
    argument vectors (and counts).  Both make the same calls with the same
    arguments, the contents of the argument vector of [execv] apart; the
    calls return the same values and leave the same [errno]; both end the
    same way (same exit status, or both replaced by the same image, each
    with its own vector); and both leave the same process state,
    diagnostics included. *)
Theorem argv_is_not_inspected
    (o : os) (p : proc) (argc1 argc2 : Z) (argv1 argv2 : list string) :
  argv_blind o ->
  map blind_event (trace (launch o p argc1 argv1)) =
  map blind_event (trace (launch o p argc2 argv2)) /\
  map ev_call (trace (launch o p argc1 argv1)) =
  map ev_call (trace (launch o p argc2 argv2)) /\
  map ev_answer (trace (launch o p argc1 argv1)) =
  map ev_answer (trace (launch o p argc2 argv2)) /\
  exit_status (ending (launch o p argc1 argv1)) =
  exit_status (ending (launch o p argc2 argv2)) /\
  (forall image args,
      ending (launch o p argc1 argv1) = Replaced image args ->
      ending (launch o p argc2 argv2) = Replaced image argv2) /\
  final (launch o p argc1 argv1) = final (launch o p argc2 argv2).
Proof.
  intros [Hans Hloads].
  unfold launch, main; cbn.
  repeat first [ forget_argv Hans Hloads argv1
               | forget_argv Hans Hloads argv2
               | ask_os ].
  all: repeat split; try reflexivity.
  all: intros image args Hend; try discriminate Hend.
  all: injection Hend as <- _; reflexivity.
Qed.

(** ** The theorems at work on the sample worlds *)

Lemma group_drop_before_user_drop_fine :
  nth_error (trace fine_run) 6 = Some (Ev (setresuid 65534 65534 65534) 0 0) /\
  ev_op (Ev (setresuid 65534 65534 65534) 0 0) = OpSetresuid /\
  ((exists j ev' gr,
      (j < 6)%nat /\ nth_error (trace fine_run) j = Some ev' /\
      ev_op ev' = OpSetresgid /\
      ev_ok ev' = true /\
      ev_args ev' = [AInt (gr_gid gr); AInt (gr_gid gr); AInt (gr_gid gr)] /\
      In (RGroup (Some gr)) (map ev_ret (trace fine_run))) /\
   (forall j ev',
      nth_error (trace fine_run) j = Some ev' ->
      ev_op ev' = OpSetresgid -> (j < 6)%nat)).
Proof.
  split; [reflexivity |]. split; [reflexivity |].
  apply (group_drop_before_user_drop all_fine root_shell 2 sample_argv 6
           (Ev (setresuid 65534 65534 65534) 0 0)); reflexivity.
Defined.

Lemma isolation_before_privilege_drop_fine :
  nth_error (trace fine_run) 5 = Some (Ev (setresgid 65534 65534 65534) 0 0) /\
  (ev_op (Ev (setresgid 65534 65534 65534) 0 0) = OpSetresgid \/
   ev_op (Ev (setresgid 65534 65534 65534) 0 0) = OpSetresuid) /\
  ((exists j ev',
      (j < 5)%nat /\ nth_error (trace fine_run) j = Some ev' /\
      ev_op ev' = OpUnshare /\ ev_ok ev' = true) /\
   (forall j ev',
      nth_error (trace fine_run) j = Some ev' ->
      ev_op ev' = OpUnshare -> (j < 5)%nat)).
Proof.
  split; [reflexivity |]. split; [left; reflexivity |].
  apply (isolation_before_privilege_drop all_fine root_shell 2 sample_argv 5
           (Ev (setresgid 65534 65534 65534) 0 0));
    [reflexivity | left; reflexivity].
Defined.

Lemma failure_stops_the_pipeline_refused :
  nth_error (trace refused_run) 4 = Some (Ev (unshare unshare_flags) (-1) 22) /\
  ev_failed (Ev (unshare unshare_flags) (-1) 22) = true /\
  ev_op (Ev (unshare unshare_flags) (-1) 22) <> OpExecv /\
  (exists status, ending refused_run = Exited status /\ status <> 0) /\
  calls OpExecv (trace refused_run) = 0%nat /\
  calls OpSetresgid (trace refused_run) = 0%nat /\
  calls OpSetresuid (trace refused_run) = 0%nat.
Proof.
  assert (Hop : ev_op (Ev (unshare unshare_flags) (-1) 22) <> OpExecv)
    by (simpl; discriminate).
  destruct (failure_stops_the_pipeline (scripted (Some OpUnshare) 22)
              root_shell 2 sample_argv 4 (Ev (unshare unshare_flags) (-1) 22)
              eq_refl eq_refl Hop)
    as (Hexit & Hexec & _ & _ & _ & Hdrop).
  split; [reflexivity |]. split; [reflexivity |]. split; [exact Hop |].
  split; [exact Hexit |]. split; [exact Hexec |].
  apply Hdrop. reflexivity.
Defined.

Lemma replaced_image_has_target_identity_fine :
  replaced (ending fine_run) = true /\
  (forall pw,
      In (RPasswd (Some pw)) (map ev_ret (trace fine_run)) ->
      pw_uid pw <> NO_ID) /\
  exists pw gr e1 e2 e6 e7,
    In (Ev (getpwnam "nobody") (Some pw) e1) (trace fine_run) /\
    In (Ev (getgrnam "nogroup") (Some gr) e2) (trace fine_run) /\
    (ruid (final fine_run) = pw_uid pw /\
     euid (final fine_run) = pw_uid pw /\
     suid (final fine_run) = pw_uid pw) /\
    (rgid (final fine_run) = gr_gid gr /\
     egid (final fine_run) = gr_gid gr /\
     sgid (final fine_run) = gr_gid gr) /\
    filter (is_op OpSetresgid) (trace fine_run) =
      [Ev (setresgid (gr_gid gr) (gr_gid gr) (gr_gid gr)) 0 e6] /\
    filter (is_op OpSetresuid) (trace fine_run) =
      [Ev (setresuid (pw_uid pw) (pw_uid pw) (pw_uid pw)) 0 e7].
Proof.
  assert (Hid : forall pw,
             In (RPasswd (Some pw)) (map ev_ret (trace fine_run)) ->
             pw_uid pw <> NO_ID).
  { intros pw Hin. simpl in Hin.
    destruct Hin as [Hpw | Hin];
      [injection Hpw as <-; vm_compute; discriminate |].
    repeat (destruct Hin as [Hpw | Hin]; [discriminate Hpw |]).
    contradiction. }
  split; [reflexivity |]. split; [exact Hid |].
  apply (proj1 (replaced_image_has_target_identity
                  all_fine root_shell 2 sample_argv));
    [reflexivity | exact Hid].
Defined.

(** C4 without the condition on the resolved ID fails in the world where
    "nobody" has the number [NO_ID]: every call succeeds, the image is
    replaced, and the three user IDs are still 0, not the resolved ID. *)
Lemma numberless_user_keeps_identity :
  replaced (ending numberless_run) = true /\
  ruid (final numberless_run) = 0 /\
  euid (final numberless_run) = 0 /\
  suid (final numberless_run) = 0 /\
  ~ (exists pw gr e1 e2 e6 e7,
       In (Ev (getpwnam "nobody") (Some pw) e1) (trace numberless_run) /\
       In (Ev (getgrnam "nogroup") (Some gr) e2) (trace numberless_run) /\
       (ruid (final numberless_run) = pw_uid pw /\
        euid (final numberless_run) = pw_uid pw /\
        suid (final numberless_run) = pw_uid pw) /\
       (rgid (final numberless_run) = gr_gid gr /\
        egid (final numberless_run) = gr_gid gr /\
        sgid (final numberless_run) = gr_gid gr) /\
       filter (is_op OpSetresgid) (trace numberless_run) =
         [Ev (setresgid (gr_gid gr) (gr_gid gr) (gr_gid gr)) 0 e6] /\
       filter (is_op OpSetresuid) (trace numberless_run) =
         [Ev (setresuid (pw_uid pw) (pw_uid pw) (pw_uid pw)) 0 e7]).
Proof.
  split; [reflexivity |]. split; [reflexivity |].
  split; [reflexivity |]. split; [reflexivity |].
  intros (pw & gr & e1 & e2 & e6 & e7 & Hpw & _ & (Hruid & _) & _).
  apply (in_map ev_ret) in Hpw. simpl in Hpw.
  destruct Hpw as [Hpw | Hin];
    [injection Hpw as <-; vm_compute in Hruid; discriminate Hruid |].
  repeat (destruct Hin as [Hpw | Hin]; [discriminate Hpw |]).
  contradiction.
Qed.

Lemma isolation_flag_set_fine :
  In (Ev (chdir "/") 0 0) (trace fine_run) /\
  calls OpUnshare (trace fine_run) = 1%nat /\
  Z.land unshare_flags CLONE_NEWUSER = 0.
Proof.
  assert (Hin : In (Ev (chdir "/") 0 0) (trace fine_run))
    by (simpl; tauto).
  destruct (isolation_flag_set all_fine root_shell 2 sample_argv)
    as (_ & Hone & _ & _ & _ & Huser).
  split; [exact Hin |]. split; [| exact Huser].
  apply Hone. exists (Ev (chdir "/") 0 0).
  split; [exact Hin |]. split; reflexivity.
Defined.

Lemma failure_is_reported_missing :
  nth_error (trace missing_run) 7 =
    Some (Ev (execv "/usr/bin/lynx" sample_argv) (-1) 2) /\
  ev_failed (Ev (execv "/usr/bin/lynx" sample_argv) (-1) 2) = true /\
  exists e,
    ev_errno (Ev (execv "/usr/bin/lynx" sample_argv) (-1) 2) = Some e /\
    ending missing_run = Exited 1 /\
    calls OpPerror (trace missing_run) = 1%nat /\
    stderr (final missing_run) =
      (stderr root_shell
       ++ op_name (ev_op (Ev (execv "/usr/bin/lynx" sample_argv) (-1) 2))
       ++ ": " ++ messages e ++ newline)%string.
Proof.
  split; [reflexivity |]. split; [reflexivity |].
  apply (failure_is_reported (scripted (Some OpExecv) 2) root_shell 2
           sample_argv 7 (Ev (execv "/usr/bin/lynx" sample_argv) (-1) 2));
    reflexivity.
Defined.

Lemma every_call_at_most_once_fine :
  replaced (ending fine_run) = true /\
  OpUnshare <> OpPerror /\
  calls OpUnshare (trace fine_run) = 1%nat.
Proof.
  assert (Hk : OpUnshare <> OpPerror) by discriminate.
  split; [reflexivity |]. split; [exact Hk |].
  apply (every_call_at_most_once all_fine root_shell 2 sample_argv OpUnshare);
    [reflexivity | exact Hk].
Defined.

Lemma argv_forwarded_verbatim_fine :
  In (NoReturn (execv "/usr/bin/lynx" sample_argv)) (trace fine_run) /\
  ev_args (NoReturn (execv "/usr/bin/lynx" sample_argv)) =
    [AStr "/usr/bin/lynx"; AVec ["render"; "mail.html"]] /\
  ending fine_run = Replaced "/usr/bin/lynx" ["render"; "mail.html"].
Proof.
  assert (Hin : In (NoReturn (execv "/usr/bin/lynx" sample_argv)) (trace fine_run))
    by (simpl; tauto).
  split; [exact Hin |]. split; [| reflexivity].
  apply (proj1 (argv_forwarded_verbatim all_fine root_shell 2 sample_argv)
           _ Hin).
  reflexivity.
Defined.

Lemma configuration_is_fixed_fine :
  In (Ev (chdir "/") 0 0) (trace fine_run) /\
  ev_args (Ev (chdir "/") 0 0) = [AStr "/"].
Proof.
  assert (Hin : In (Ev (chdir "/") 0 0) (trace fine_run))
    by (simpl; tauto).
  split; [exact Hin |].
  apply (configuration_is_fixed all_fine root_shell 2 sample_argv
           (Ev (chdir "/") 0 0) Hin).
Defined.

Lemma argv_is_not_inspected_missing :
  argv_blind (scripted (Some OpExecv) 2) /\
  map ev_call (trace missing_run) =
  map ev_call
    (trace (launch (scripted (Some OpExecv) 2) root_shell 3
              ["render"; "-dump"; "other.html"])) /\
  map ev_answer (trace missing_run) =
  map ev_answer
    (trace (launch (scripted (Some OpExecv) 2) root_shell 3
              ["render"; "-dump"; "other.html"])) /\
  final missing_run =
  final (launch (scripted (Some OpExecv) 2) root_shell 3
           ["render"; "-dump"; "other.html"]).
Proof.
  assert (Hblind : argv_blind (scripted (Some OpExecv) 2)).
  { split.
    - intros R h p c. destruct c; reflexivity.
    - intros h p path argv. reflexivity. }
  split; [exact Hblind |].
  destruct (argv_is_not_inspected
              (scripted (Some OpExecv) 2)
              root_shell 2 3 sample_argv ["render"; "-dump"; "other.html"]
              Hblind)
    as (_ & Hcalls & Hanswers & _ & _ & Hfinal).
  split; [exact Hcalls |]. split; [exact Hanswers | exact Hfinal].
Defined.

(** * Further properties of [main]

    What the rest of the control flow of [main] shows: the order of all its
    calls, where [perror] can appear, and the process state each exit
    leaves behind. *)

(** ** Order and gating of the calls *)

(** X1: the calls of a run appear in the order of the source text:
    [getpwnam], [getgrnam], [initgroups], [chdir], [unshare], [setresgid],
    [setresuid], [execv], with [perror] after all of them. *)
Theorem calls_in_program_order
    (o : os) (p : proc) (argc : Z) (argv : list string)
    (i j : nat) (a b : event) :
  nth_error (trace (launch o p argc argv)) i = Some a ->
  nth_error (trace (launch o p argc argv)) j = Some b ->
  (i < j)%nat ->
  (op_index (ev_op a) < op_index (ev_op b))%nat.
Proof.
  nine_runs o p argc argv; intros Ha Hb Hlt;
    at_each i Ha; at_each j Hb; cbn; lia.
Qed.

(** X2: a pipeline call is issued only when every call before it
    succeeded: any call that is followed, anywhere later in the run, by a
    call other than [perror] returned success. *)
Theorem later_call_means_earlier_success
    (o : os) (p : proc) (argc : Z) (argv : list string)
    (i j : nat) (a b : event) :
  nth_error (trace (launch o p argc argv)) i = Some a ->
  nth_error (trace (launch o p argc argv)) j = Some b ->
  (i < j)%nat ->
  ev_op b <> OpPerror ->
  ev_ok a = true.
Proof.
  nine_runs o p argc argv; intros Ha Hb Hlt Hb';
    at_each i Ha; at_each j Hb;
    try reflexivity; try lia; exfalso; apply Hb'; reflexivity.
Qed.

(** X3: [perror] is called only directly after a call that failed, with
    the name of that call as its argument, and it is the last call of the
    run. *)
Theorem perror_follows_the_failure
    (o : os) (p : proc) (argc : Z) (argv : list string) (j : nat) (b : event) :
  nth_error (trace (launch o p argc argv)) j = Some b ->
  ev_op b = OpPerror ->
  exists i a,
    j = S i /\
    nth_error (trace (launch o p argc argv)) i = Some a /\
    ev_failed a = true /\
    ev_args b = [AStr (op_name (ev_op a))] /\
    nth_error (trace (launch o p argc argv)) (S j) = None.
Proof.
  nine_runs o p argc argv; intros Hb Hop; at_each j Hb; try discriminate Hop.
  all: eexists; eexists; split; [reflexivity |]; split; [reflexivity |];
    split; [| split; reflexivity].
  all: unfold ev_failed; cbn;
    try match goal with
        | Hv : ?v <> 0 |- _ => rewrite (proj2 (Z.eqb_neq v 0) Hv)
        end; reflexivity.
Qed.

(** ** How a run can end *)

(** X4: the launcher never exits with status 0.  When it exits at all, the
    status is 1, exactly one call of the run failed, and [perror] was
    called exactly once. *)
Theorem exit_means_one_failure
    (o : os) (p : proc) (argc : Z) (argv : list string) (status : Z) :
  ending (launch o p argc argv) = Exited status ->
  status = 1 /\
  List.length (filter ev_failed (trace (launch o p argc argv))) = 1%nat /\
  calls OpPerror (trace (launch o p argc argv)) = 1%nat.
Proof.
  nine_runs o p argc argv; intros Hend; try discriminate Hend;
    injection Hend as <-.
  all: split; [reflexivity |]; split; [| reflexivity].
  all: unfold ev_failed; cbn;
    try match goal with
        | Hv : ?v <> 0 |- _ => rewrite (proj2 (Z.eqb_neq v 0) Hv)
        end; reflexivity.
Qed.

(** X5: the image is replaced exactly when every call of the run
    succeeded; such a run never calls [perror] and writes nothing to the
    standard error stream. *)
Theorem replaced_iff_all_calls_succeed
    (o : os) (p : proc) (argc : Z) (argv : list string) :
  (replaced (ending (launch o p argc argv)) = true <->
   forallb ev_ok (trace (launch o p argc argv)) = true) /\
  (replaced (ending (launch o p argc argv)) = true ->
   calls OpPerror (trace (launch o p argc argv)) = 0%nat /\
   stderr (final (launch o p argc argv)) = stderr p).
Proof.
  split.
  - nine_runs o p argc argv; cbn;
      try match goal with
          | Hv : ?v <> 0 |- _ => rewrite (proj2 (Z.eqb_neq v 0) Hv)
          end; cbn; split; intros Hx; try discriminate Hx; reflexivity.
  - nine_runs o p argc argv; intros Hrep; try discriminate Hrep.
    split; reflexivity.
Qed.

(** ** The process state each exit leaves *)

(** X6: by the time [execv] is called the earlier stages have taken
    effect, whether or not [execv] then succeeds: in any run that contains
    an [execv] call, the final working directory is "/", the [unshare]
    flags have been added, the supplementary groups are the resolved group
    and the groups of "nobody", all three group IDs are the resolved
    group's, and all three user IDs are the resolved user's, unless that ID
    is [NO_ID], in which case the three user IDs are still those the
    launcher started with. *)
Theorem state_at_execv
    (o : os) (p : proc) (argc : Z) (argv : list string) (ev : event) :
  In ev (trace (launch o p argc argv)) ->
  ev_op ev = OpExecv ->
  exists pw gr,
    In (RPasswd (Some pw)) (map ev_ret (trace (launch o p argc argv))) /\
    In (RGroup (Some gr)) (map ev_ret (trace (launch o p argc argv))) /\
    (pw_uid pw <> NO_ID ->
     ruid (final (launch o p argc argv)) = pw_uid pw /\
     euid (final (launch o p argc argv)) = pw_uid pw /\
     suid (final (launch o p argc argv)) = pw_uid pw) /\
    (pw_uid pw = NO_ID ->
     ruid (final (launch o p argc argv)) = ruid p /\
     euid (final (launch o p argc argv)) = euid p /\
     suid (final (launch o p argc argv)) = suid p) /\
    (rgid (final (launch o p argc argv)) = gr_gid gr /\
     egid (final (launch o p argc argv)) = gr_gid gr /\
     sgid (final (launch o p argc argv)) = gr_gid gr) /\
    groups (final (launch o p argc argv)) =
      gr_gid gr :: memberships o "nobody" /\
    cwd (final (launch o p argc argv)) = "/" /\
    unshared (final (launch o p argc argv)) = Z.lor (unshared p) unshare_flags.
Proof.
  nine_runs o p argc argv; intros Hin Hop; cbn in Hin;
    repeat (destruct Hin as [<- | Hin]; [try discriminate Hop |]);
    try contradiction.
  all: exists pw, gr; cbn.
  all: split; [left; reflexivity |].
  all: split; [right; left; reflexivity |].
  all: split; [intros Hpw; rewrite !(keep_id_set _ _ Hpw); repeat split |].
  all: split; [intros Hno; rewrite Hno; repeat split |].
  all: repeat split.
Qed.

(** X7: a failure in a stage up to and including the directory change
    (user lookup, group lookup, [initgroups], [chdir]) leaves the six IDs,
    the working directory and the set of detached namespaces as they were.
    The supplementary group list is as it was when a lookup or [initgroups]
    failed; when [chdir] failed it has already been replaced by the
    resolved group and the groups of "nobody". *)
Theorem early_failure_changes_nothing
    (o : os) (p : proc) (argc : Z) (argv : list string)
    (i : nat) (ev : event) (s : stage) :
  nth_error (trace (launch o p argc argv)) i = Some ev ->
  ev_failed ev = true ->
  stage_of (ev_op ev) = Some s ->
  (stage_index s <= stage_index Chdir)%nat ->
  (ruid (final (launch o p argc argv)) = ruid p /\
   euid (final (launch o p argc argv)) = euid p /\
   suid (final (launch o p argc argv)) = suid p) /\
  (rgid (final (launch o p argc argv)) = rgid p /\
   egid (final (launch o p argc argv)) = egid p /\
   sgid (final (launch o p argc argv)) = sgid p) /\
  cwd (final (launch o p argc argv)) = cwd p /\
  unshared (final (launch o p argc argv)) = unshared p /\
  ((stage_index s <= stage_index GroupInit)%nat ->
   groups (final (launch o p argc argv)) = groups p) /\
  (s = Chdir ->
   exists gr,
     In (RGroup (Some gr)) (map ev_ret (trace (launch o p argc argv))) /\
     groups (final (launch o p argc argv)) =
       gr_gid gr :: memberships o "nobody").
Proof.
  nine_runs o p argc argv; intros Hev Hfail Hs Hle; at_each i Hev;
    unfold ev_failed in Hfail; cbn in Hfail; try discriminate Hfail;
    cbn in Hs; try discriminate Hs; injection Hs as <-; cbn in Hle;
    try lia.
  all: do 4 (split; [repeat split |]).
  all: split; [intros Hle'; cbn in Hle'; try lia; reflexivity |].
  all: intros Hs; try discriminate Hs.
  all: exists gr; split; [right; left; reflexivity | reflexivity].
Qed.

(** X8: the IDs change only by a successful drop: when a stage up to and
    including the group drop fails, the process exits with the three user
    IDs and the three group IDs it started with. *)
Theorem failure_before_drop_keeps_identity
    (o : os) (p : proc) (argc : Z) (argv : list string)
    (i : nat) (ev : event) (s : stage) :
  nth_error (trace (launch o p argc argv)) i = Some ev ->
  ev_failed ev = true ->
  stage_of (ev_op ev) = Some s ->
  (stage_index s <= stage_index DroppingGroup)%nat ->
  (ruid (final (launch o p argc argv)) = ruid p /\
   euid (final (launch o p argc argv)) = euid p /\
   suid (final (launch o p argc argv)) = suid p) /\
  (rgid (final (launch o p argc argv)) = rgid p /\
   egid (final (launch o p argc argv)) = egid p /\
   sgid (final (launch o p argc argv)) = sgid p).
Proof.
  nine_runs o p argc argv; intros Hev Hfail Hs Hle; at_each i Hev;
    unfold ev_failed in Hfail; cbn in Hfail; try discriminate Hfail;
    cbn in Hs; try discriminate Hs; injection Hs as <-; cbn in Hle;
    try lia; repeat split.
Qed.

(** X9: when the user drop fails, the group drop is already in effect and
    is not undone: the process exits with the three group IDs of the
    resolved group and the three user IDs it started with. *)
Theorem failed_user_drop_keeps_group_drop
    (o : os) (p : proc) (argc : Z) (argv : list string) (i : nat) (ev : event) :
  nth_error (trace (launch o p argc argv)) i = Some ev ->
  ev_failed ev = true ->
  ev_op ev = OpSetresuid ->
  exists gr,
    In (RGroup (Some gr)) (map ev_ret (trace (launch o p argc argv))) /\
    (rgid (final (launch o p argc argv)) = gr_gid gr /\
     egid (final (launch o p argc argv)) = gr_gid gr /\
     sgid (final (launch o p argc argv)) = gr_gid gr) /\
    (ruid (final (launch o p argc argv)) = ruid p /\
     euid (final (launch o p argc argv)) = euid p /\
     suid (final (launch o p argc argv)) = suid p).
Proof.
  nine_runs o p argc argv; intros Hev Hfail Hop; at_each i Hev;
    try discriminate Hop;
    unfold ev_failed in Hfail; cbn in Hfail; try discriminate Hfail.
  exists gr; cbn; intuition.
Qed.

(** X10: the directory change and the isolation are not undone by a later
    failure: when a stage after the directory change fails the process
    exits in "/", with nothing newly detached if it is [unshare] that
    failed, and with the [unshare] flags in effect if a later stage
    failed. *)
Theorem late_failure_keeps_isolation
    (o : os) (p : proc) (argc : Z) (argv : list string)
    (i : nat) (ev : event) (s : stage) :
  nth_error (trace (launch o p argc argv)) i = Some ev ->
  ev_failed ev = true ->
  stage_of (ev_op ev) = Some s ->
  (stage_index Chdir < stage_index s)%nat ->
  cwd (final (launch o p argc argv)) = "/" /\
  unshared (final (launch o p argc argv)) =
    (if Nat.eqb (stage_index s) (stage_index Isolating)
     then unshared p
     else Z.lor (unshared p) unshare_flags).
Proof.
  nine_runs o p argc argv; intros Hev Hfail Hs Hlt; at_each i Hev;
    unfold ev_failed in Hfail; cbn in Hfail; try discriminate Hfail;
    cbn in Hs; try discriminate Hs; injection Hs as <-; cbn in Hlt;
    try lia; split; reflexivity.
Qed.

(** ** The arguments of the identity calls *)

(** X11: [initgroups] is called for user "nobody" with the ID of the group
    record that [getgrnam] returned in this run. *)
Theorem initgroups_uses_resolved_group
    (o : os) (p : proc) (argc : Z) (argv : list string) (ev : event) :
  In ev (trace (launch o p argc argv)) ->
  ev_op ev = OpInitgroups ->
  exists gr,
    In (RGroup (Some gr)) (map ev_ret (trace (launch o p argc argv))) /\
    ev_args ev = [AStr "nobody"; AInt (gr_gid gr)].
Proof.
  nine_runs o p argc argv; intros Hin Hop; cbn in Hin;
    repeat (destruct Hin as [<- | Hin]; [try discriminate Hop |]);
    try contradiction.
  all: exists gr; split; [right; left; reflexivity | reflexivity].
Qed.

(** X12: every [setresgid] call, whether it succeeds or not, names the ID
    of the resolved group in all three slots, and every [setresuid] call
    names the ID of the resolved user in all three slots. *)
Theorem drops_name_resolved_ids
    (o : os) (p : proc) (argc : Z) (argv : list string) (ev : event) :
  In ev (trace (launch o p argc argv)) ->
  (ev_op ev = OpSetresgid ->
   exists gr,
     In (RGroup (Some gr)) (map ev_ret (trace (launch o p argc argv))) /\
     ev_args ev = [AInt (gr_gid gr); AInt (gr_gid gr); AInt (gr_gid gr)]) /\
  (ev_op ev = OpSetresuid ->
   exists pw,
     In (RPasswd (Some pw)) (map ev_ret (trace (launch o p argc argv))) /\
     ev_args ev = [AInt (pw_uid pw); AInt (pw_uid pw); AInt (pw_uid pw)]).
Proof.
  nine_runs o p argc argv; intros Hin; cbn in Hin;
    repeat (destruct Hin as [<- | Hin];
            [split; intros Hop; try discriminate Hop;
             first [ exists gr; split; [right; left; reflexivity | reflexivity]
                   | exists pw; split; [left; reflexivity | reflexivity] ] |]);
    contradiction.
Qed.

(** ** These properties on the sample worlds *)

Lemma calls_in_program_order_fine :
  nth_error (trace fine_run) 2 = Some (Ev (initgroups "nobody" 65534) 0 0) /\
  nth_error (trace fine_run) 4 = Some (Ev (unshare unshare_flags) 0 0) /\
  (2 < 4)%nat /\
  Nat.lt (op_index (ev_op (Ev (initgroups "nobody" 65534) 0 0)))
         (op_index (ev_op (Ev (unshare unshare_flags) 0 0))).
Proof.
  split; [reflexivity |]. split; [reflexivity |]. split; [lia |].
  apply (calls_in_program_order all_fine root_shell 2 sample_argv 2 4);
    [reflexivity | reflexivity | lia].
Defined.

Lemma later_call_means_earlier_success_fine :
  nth_error (trace fine_run) 2 = Some (Ev (initgroups "nobody" 65534) 0 0) /\
  nth_error (trace fine_run) 4 = Some (Ev (unshare unshare_flags) 0 0) /\
  (2 < 4)%nat /\
  ev_op (Ev (unshare unshare_flags) 0 0) <> OpPerror /\
  ev_ok (Ev (initgroups "nobody" 65534) 0 0) = true.
Proof.
  assert (Hb : ev_op (Ev (unshare unshare_flags) 0 0) <> OpPerror)
    by (simpl; discriminate).
  split; [reflexivity |]. split; [reflexivity |]. split; [lia |].
  split; [exact Hb |].
  apply (later_call_means_earlier_success all_fine root_shell 2 sample_argv
           2 4 (Ev (initgroups "nobody" 65534) 0 0)
           (Ev (unshare unshare_flags) 0 0));
    [reflexivity | reflexivity | lia | exact Hb].
Defined.

Lemma perror_follows_the_failure_refused :
  nth_error (trace refused_run) 5 = Some (Ev (perror "unshare") tt 22) /\
  ev_op (Ev (perror "unshare") tt 22) = OpPerror /\
  exists i a,
    5%nat = S i /\
    nth_error (trace refused_run) i = Some a /\
    ev_failed a = true /\
    ev_args (Ev (perror "unshare") tt 22) = [AStr (op_name (ev_op a))] /\
    nth_error (trace refused_run) 6 = None.
Proof.
  split; [reflexivity |]. split; [reflexivity |].
  apply (perror_follows_the_failure (scripted (Some OpUnshare) 22) root_shell
           2 sample_argv 5 (Ev (perror "unshare") tt 22));
    reflexivity.
Defined.

Lemma exit_means_one_failure_refused :
  ending refused_run = Exited 1 /\
  (1 = 1 /\
   List.length (filter ev_failed (trace refused_run)) = 1%nat /\
   calls OpPerror (trace refused_run) = 1%nat).
Proof.
  split; [reflexivity |].
  apply (exit_means_one_failure (scripted (Some OpUnshare) 22) root_shell
           2 sample_argv 1).
  reflexivity.
Defined.

Lemma replaced_iff_all_calls_succeed_fine :
  forallb ev_ok (trace fine_run) = true /\
  replaced (ending fine_run) = true /\
  calls OpPerror (trace fine_run) = 0%nat /\
  stderr (final fine_run) = stderr root_shell.
Proof.
  destruct (replaced_iff_all_calls_succeed all_fine root_shell 2 sample_argv)
    as [Hiff Hquiet].
  assert (Hall : forallb ev_ok (trace fine_run) = true) by reflexivity.
  split; [exact Hall |].
  split; [exact (proj2 Hiff Hall) |].
  exact (Hquiet (proj2 Hiff Hall)).
Defined.

Lemma state_at_execv_numberless :
  In (NoReturn (execv "/usr/bin/lynx" sample_argv)) (trace numberless_run) /\
  ev_op (NoReturn (execv "/usr/bin/lynx" sample_argv)) = OpExecv /\
  exists pw gr,
    In (RPasswd (Some pw)) (map ev_ret (trace numberless_run)) /\
    In (RGroup (Some gr)) (map ev_ret (trace numberless_run)) /\
    (pw_uid pw <> NO_ID ->
     ruid (final numberless_run) = pw_uid pw /\
     euid (final numberless_run) = pw_uid pw /\
     suid (final numberless_run) = pw_uid pw) /\
    (pw_uid pw = NO_ID ->
     ruid (final numberless_run) = ruid root_shell /\
     euid (final numberless_run) = euid root_shell /\
     suid (final numberless_run) = suid root_shell) /\
    (rgid (final numberless_run) = gr_gid gr /\
     egid (final numberless_run) = gr_gid gr /\
     sgid (final numberless_run) = gr_gid gr) /\
    groups (final numberless_run) =
      gr_gid gr :: memberships numberless_world "nobody" /\
    cwd (final numberless_run) = "/" /\
    unshared (final numberless_run) =
      Z.lor (unshared root_shell) unshare_flags.
Proof.
  assert (Hin : In (NoReturn (execv "/usr/bin/lynx" sample_argv))
                   (trace numberless_run))
    by (simpl; tauto).
  split; [exact Hin |]. split; [reflexivity |].
  apply (state_at_execv numberless_world root_shell
           2 sample_argv (NoReturn (execv "/usr/bin/lynx" sample_argv)) Hin).
  reflexivity.
Defined.

Lemma early_failure_changes_nothing_chdir :
  nth_error (trace chdir_denied_run) 3 = Some (Ev (chdir "/") (-1) 2) /\
  ev_failed (Ev (chdir "/") (-1) 2) = true /\
  stage_of (ev_op (Ev (chdir "/") (-1) 2)) = Some Chdir /\
  (stage_index Chdir <= stage_index Chdir)%nat /\
  cwd (final chdir_denied_run) = cwd root_shell /\
  unshared (final chdir_denied_run) = unshared root_shell /\
  exists gr,
    In (RGroup (Some gr)) (map ev_ret (trace chdir_denied_run)) /\
    groups (final chdir_denied_run) =
      gr_gid gr :: memberships (scripted (Some OpChdir) 2) "nobody".
Proof.
  split; [reflexivity |]. split; [reflexivity |]. split; [reflexivity |].
  split; [lia |].
  destruct (early_failure_changes_nothing (scripted (Some OpChdir) 2)
              root_shell 2 sample_argv 3 (Ev (chdir "/") (-1) 2) Chdir
              eq_refl eq_refl eq_refl (le_n _))
    as (_ & _ & Hcwd & Hns & _ & Hgroups).
  split; [exact Hcwd |]. split; [exact Hns |].
  apply Hgroups. reflexivity.
Defined.

Lemma failure_before_drop_keeps_identity_setresgid :
  nth_error (trace setresgid_denied_run) 5 =
    Some (Ev (setresgid 65534 65534 65534) (-1) 1) /\
  ev_failed (Ev (setresgid 65534 65534 65534) (-1) 1) = true /\
  stage_of (ev_op (Ev (setresgid 65534 65534 65534) (-1) 1)) =
    Some DroppingGroup /\
  (stage_index DroppingGroup <= stage_index DroppingGroup)%nat /\
  (ruid (final setresgid_denied_run) = ruid root_shell /\
   euid (final setresgid_denied_run) = euid root_shell /\
   suid (final setresgid_denied_run) = suid root_shell) /\
  (rgid (final setresgid_denied_run) = rgid root_shell /\
   egid (final setresgid_denied_run) = egid root_shell /\
   sgid (final setresgid_denied_run) = sgid root_shell).
Proof.
  split; [reflexivity |]. split; [reflexivity |]. split; [reflexivity |].
  split; [lia |].
  apply (failure_before_drop_keeps_identity (scripted (Some OpSetresgid) 1)
           root_shell 2 sample_argv 5
           (Ev (setresgid 65534 65534 65534) (-1) 1) DroppingGroup);
    [reflexivity | reflexivity | reflexivity | lia].
Defined.

Lemma failed_user_drop_keeps_group_drop_denied :
  nth_error (trace setresuid_denied_run) 6 =
    Some (Ev (setresuid 65534 65534 65534) (-1) 1) /\
  ev_failed (Ev (setresuid 65534 65534 65534) (-1) 1) = true /\
  ev_op (Ev (setresuid 65534 65534 65534) (-1) 1) = OpSetresuid /\
  exists gr,
    In (RGroup (Some gr)) (map ev_ret (trace setresuid_denied_run)) /\
    (rgid (final setresuid_denied_run) = gr_gid gr /\
     egid (final setresuid_denied_run) = gr_gid gr /\
     sgid (final setresuid_denied_run) = gr_gid gr) /\
    (ruid (final setresuid_denied_run) = ruid root_shell /\
     euid (final setresuid_denied_run) = euid root_shell /\
     suid (final setresuid_denied_run) = suid root_shell).
Proof.
  split; [reflexivity |]. split; [reflexivity |]. split; [reflexivity |].
  apply (failed_user_drop_keeps_group_drop (scripted (Some OpSetresuid) 1)
           root_shell 2 sample_argv 6
           (Ev (setresuid 65534 65534 65534) (-1) 1));
    reflexivity.
Defined.

Lemma late_failure_keeps_isolation_denied :
  nth_error (trace setresgid_denied_run) 5 =
    Some (Ev (setresgid 65534 65534 65534) (-1) 1) /\
  ev_failed (Ev (setresgid 65534 65534 65534) (-1) 1) = true /\
  stage_of (ev_op (Ev (setresgid 65534 65534 65534) (-1) 1)) =
    Some DroppingGroup /\
  (stage_index Chdir < stage_index DroppingGroup)%nat /\
  cwd (final setresgid_denied_run) = "/" /\
  unshared (final setresgid_denied_run) =
    Z.lor (unshared root_shell) unshare_flags.
Proof.
  split; [reflexivity |]. split; [reflexivity |]. split; [reflexivity |].
  split; [simpl; lia |].
  apply (late_failure_keeps_isolation (scripted (Some OpSetresgid) 1)
           root_shell 2 sample_argv 5
           (Ev (setresgid 65534 65534 65534) (-1) 1) DroppingGroup);
    [reflexivity | reflexivity | reflexivity | simpl; lia].
Defined.

Lemma initgroups_uses_resolved_group_fine :
  In (Ev (initgroups "nobody" 65534) 0 0) (trace fine_run) /\
  ev_op (Ev (initgroups "nobody" 65534) 0 0) = OpInitgroups /\
  exists gr,
    In (RGroup (Some gr)) (map ev_ret (trace fine_run)) /\
    ev_args (Ev (initgroups "nobody" 65534) 0 0) =
      [AStr "nobody"; AInt (gr_gid gr)].
Proof.
  assert (Hin : In (Ev (initgroups "nobody" 65534) 0 0) (trace fine_run))
    by (simpl; tauto).
  split; [exact Hin |]. split; [reflexivity |].
  apply (initgroups_uses_resolved_group all_fine root_shell 2 sample_argv
           (Ev (initgroups "nobody" 65534) 0 0) Hin).
  reflexivity.
Defined.

Lemma drops_name_resolved_ids_denied :
  In (Ev (setresuid 65534 65534 65534) (-1) 1) (trace setresuid_denied_run) /\
  ev_op (Ev (setresuid 65534 65534 65534) (-1) 1) = OpSetresuid /\
  exists pw,
    In (RPasswd (Some pw)) (map ev_ret (trace setresuid_denied_run)) /\
    ev_args (Ev (setresuid 65534 65534 65534) (-1) 1) =
      [AInt (pw_uid pw); AInt (pw_uid pw); AInt (pw_uid pw)].
Proof.
  assert (Hin : In (Ev (setresuid 65534 65534 65534) (-1) 1)
                   (trace setresuid_denied_run))
    by (simpl; tauto).
  split; [exact Hin |]. split; [reflexivity |].
  apply (proj2 (drops_name_resolved_ids (scripted (Some OpSetresuid) 1)
                  root_shell 2 sample_argv
                  (Ev (setresuid 65534 65534 65534) (-1) 1) Hin)).
  reflexivity.
Defined.
